(** * ginga/modes/contrast.py: the contrast mode of the image viewer

    A shallow embedding of [ContrastMode]: the binding table built by
    [__init__], the [cancmap] gate, [restore_contrast], [_tweak_colormap]
    and the three callbacks [kp_contrast_restore], [ms_contrast] and
    [ms_contrast_restore].

    Conventions of the embedding.
    - Pixel coordinates and window sizes are Python integers: [Z].
    - A numpy float is either a finite value, kept as a rational, or one of
      the three special values that numpy's scalar division produces instead
      of raising: [PosInf], [NegInf], [NaN].  The result of every float
      operation goes through a rounding function [rnd], of which only three
      facts are used: it is monotone and it leaves 0 and 1 alone.  Exact
      arithmetic is one instance, rounding to a fixed grid another, and the
      rounding of binary64 to nearest has the three properties as well.
    - A [SettingGroup] is a dictionary from names to Python values.  The
      groups live in a store indexed by references, because the viewer's
      group ([viewer.get_settings()]) and the mode's own group
      ([self.settings]) are two attributes that the constructor's caller is
      free to point at one object.  Callbacks that the framework may hang on
      a setting run outside of this module and are not part of the model.
    - Methods are computations in a state monad over [World].  Calls that
      leave this module and only reach the display ([onscreen_message], the
      [suppress_redraw] context manager) are recorded in a log. *)

From Stdlib Require Import ZArith QArith Qround Lqa Lia.
From stdpp Require Import gmap strings.

Local Open Scope Z_scope.

(** ** Python and numpy values *)

Inductive npfloat : Type :=
| Fin (q : Q)
| PosInf
| NegInf
| NaN.

Inductive pyval : Type :=
| PyNone
| PyBool (b : bool)
| PyInt (n : Z)
| PyFloat (x : npfloat)
| PyStr (s : string).

(** Truth value of an object, as [if msg:] tests it. *)
Definition truthy (v : pyval) : bool :=
  match v with
  | PyNone => false
  | PyBool b => b
  | PyInt n => negb (n =? 0)
  | PyFloat (Fin q) => negb (Qeq_bool q 0)
  | PyFloat _ => true
  | PyStr s => negb (String.eqb s "")
  end.

(** How the result of a float operation is rounded. *)
Class Rounding : Type := {
  rnd : Q -> Q;
  rnd_mono : forall p q : Q, (p <= q)%Q -> (rnd p <= rnd q)%Q;
  rnd_0 : (rnd 0 == 0)%Q;
  rnd_1 : (rnd 1 == 1)%Q
}.

(** No rounding at all. *)
Definition exact_arith : Rounding.
Proof.
  refine {| rnd := fun q => q |}.
  - intros p q H. exact H.
  - reflexivity.
  - reflexivity.
Defined.

(** Rounding down to the multiples of [1 / scale]. *)
Definition fixed_point (scale : positive) : Rounding.
Proof.
  refine {| rnd := fun q => Qmake (Qfloor (q * inject_Z (Z.pos scale))) scale |}.
  - intros p q H. unfold Qle. cbn [Qnum Qden].
    apply Z.mul_le_mono_nonneg_r; [lia |].
    apply Qfloor_resp_le. apply Qmult_le_compat_r; [exact H | discriminate].
  - reflexivity.
  - unfold Qeq. simpl. rewrite Z.div_1_r. lia.
Defined.

(** [np.clip(a, a_min, a_max)] on integers; numpy defines it as
    [minimum(a_max, maximum(a, a_min))]. *)
Definition np_clip (a a_min a_max : Z) : Z := Z.min a_max (Z.max a a_min).

Section FloatOps.

Context {R : Rounding}.

(** [float(n)]. *)
Definition float (n : Z) : npfloat := Fin (rnd (inject_Z n)).

(** [n / d] for a numpy integer scalar [n] and a float [d].  A zero
    divisor raises nothing: numpy warns and yields [nan] for [0 / 0.0]
    and a signed infinity otherwise. *)
Definition truediv (n : Z) (d : npfloat) : npfloat :=
  match d with
  | Fin q =>
      if Qeq_bool q 0 then
        if n =? 0 then NaN else if 0 <? n then PosInf else NegInf
      else Fin (rnd (rnd (inject_Z n) / q))
  | PosInf | NegInf => Fin 0
  | NaN => NaN
  end.

(** [a - b] on floats. *)
Definition fsub (a b : npfloat) : npfloat :=
  match a, b with
  | NaN, _ | _, NaN => NaN
  | Fin p, Fin q => Fin (rnd (p - q))
  | Fin _, PosInf => NegInf
  | Fin _, NegInf => PosInf
  | PosInf, PosInf => NaN
  | PosInf, _ => PosInf
  | NegInf, NegInf => NaN
  | NegInf, _ => NegInf
  end.

End FloatOps.

(** A float that is a finite number equal to [q]. *)
Definition is_num (v : npfloat) (q : Q) : Prop :=
  match v with Fin p => (p == q)%Q | _ => False end.

(** Two floats that are finite and equal as numbers. *)
Definition num_eq (u v : npfloat) : Prop :=
  match u, v with Fin p, Fin q => (p == q)%Q | _, _ => False end.

(** A float that is a finite number of the closed interval [0, 1]. *)
Definition in_unit (v : npfloat) : Prop :=
  match v with Fin p => (0 <= p <= 1)%Q | _ => False end.

(** Two floats that are finite, the first not above the second. *)
Definition num_le (u v : npfloat) : Prop :=
  match u, v with Fin p, Fin q => (p <= q)%Q | _, _ => False end.

(** ** The objects the mode works on *)

Abbreviation SettingGroup := (gmap string pyval).
Abbreviation ref := positive.

(** What the viewer object offers to this module: its settings group, the
    window size and the cursor position that [Mode.get_win_xy] reports. *)
Record Viewer : Type := {
  v_settings : ref;          (* viewer.get_settings() *)
  window_size : Z * Z;       (* viewer.get_window_size() *)
  win_xy : Z * Z             (* self.get_win_xy(viewer) *)
}.

(** The mouse or key event handed to a callback. *)
Record Event : Type := {
  state : string;
  accepted : bool
}.

(** The attributes of a [ContrastMode] instance.  [_start_x] and [_start_y]
    do not exist before the first button press. *)
Record Mode : Type := {
  settings : ref;                                  (* self.settings *)
  actions : gmap string (list (option string));    (* self.actions *)
  _start_x : option Z;
  _start_y : option Z
}.

(** Calls into the display. *)
Inductive Call : Type :=
| OnscreenMessage (text : option string) (delay : option Q)
| SuppressRedrawEnter
| SuppressRedrawExit.

Record World : Type := {
  store : gmap ref SettingGroup;     (* the SettingGroup objects *)
  viewer : Viewer;
  feature_allow : string -> bool;    (* self.viewer.get_bindings().get_feature_allow *)
  self : Mode;
  event : Event;
  log : list Call                    (* newest call first *)
}.

(** The group a reference points to. *)
Definition group (w : World) (r : ref) : SettingGroup := default ∅ (store w !! r).

Definition with_store (f : gmap ref SettingGroup -> gmap ref SettingGroup) (w : World) : World :=
  {| store := f (store w); viewer := viewer w; feature_allow := feature_allow w;
     self := self w; event := event w; log := log w |}.

Definition with_self (f : Mode -> Mode) (w : World) : World :=
  {| store := store w; viewer := viewer w; feature_allow := feature_allow w;
     self := f (self w); event := event w; log := log w |}.

Definition with_event (f : Event -> Event) (w : World) : World :=
  {| store := store w; viewer := viewer w; feature_allow := feature_allow w;
     self := self w; event := f (event w); log := log w |}.

Definition with_log (f : list Call -> list Call) (w : World) : World :=
  {| store := store w; viewer := viewer w; feature_allow := feature_allow w;
     self := self w; event := event w; log := f (log w) |}.

(** ** The state monad of the methods *)

Definition M (A : Type) : Type := World -> A * World.

Definition ret {A} (a : A) : M A := fun w => (a, w).

Definition bind {A B} (c : M A) (k : A -> M B) : M B :=
  fun w => let (a, w') := c w in k a w'.

Definition gets {A} (f : World -> A) : M A := fun w => (f w, w).

Definition modify (f : World -> World) : M unit := fun w => (tt, f w).

Notation "x <- c ;; k" := (bind c (fun x => k))
  (at level 100, c at next level, right associativity).
Notation "c ;;; k" := (bind c (fun _ => k))
  (at level 100, right associativity).

(** The world after a computation, and the value it returns. *)
Definition exec {A} (c : M A) (w : World) : World := snd (c w).
Definition result {A} (c : M A) (w : World) : A := fst (c w).

(** ** The framework operations the module calls *)

(** [group.set(k1=v1, k2=v2, ...)]: the keywords are stored in order. *)
Definition store_set (r : ref) (kvs : list (string * pyval))
    (st : gmap ref SettingGroup) : gmap ref SettingGroup :=
  fold_left (fun st kv => <[r := <[fst kv := snd kv]> (default ∅ (st !! r))]> st) kvs st.

Arguments store_set : simpl never.

Definition settings_set (r : ref) (kvs : list (string * pyval)) : M unit :=
  modify (with_store (store_set r kvs)).

(** [group.get(key, dflt)]. *)
Definition settings_get (r : ref) (key : string) (dflt : pyval) : M pyval :=
  gets (fun w => default dflt (group w r !! key)).

(** [self.onscreen_message(text, delay=delay)]. *)
Definition onscreen_message (text : option string) (delay : option Q) : M unit :=
  modify (with_log (cons (OnscreenMessage text delay))).

(** [event.accept()]. *)
Definition accept : M unit :=
  modify (with_event (fun e => {| state := state e; accepted := true |})).

(** ** ContrastMode *)

(** [__init__]: the base class stores the settings group; the subclass adds
    the binding table. *)
Definition __init__ (settings_ref : ref) : Mode :=
  {| settings := settings_ref;
     actions :=
       <["ms_contrast_restore" := [Some "contrast+right"; Some "ctrl+middle"]]>
       (<["ms_contrast" := [Some "contrast+left"; Some "ctrl+right"]]>
       (<["kp_contrast_restore" := [Some "T"; Some "contrast+t"; Some "contrast+T"]]>
       (<["dmod_contrast" := [Some "__t"; None; None]]> ∅)));
     _start_x := None;
     _start_y := None |}.

(** [__str__]: the name of the mode. *)
Definition __str__ : string := "contrast".

(** [start]: nothing to set up. *)
Definition start : M pyval := ret PyNone.

(** [stop]: the on-screen message is cleared. *)
Definition stop : M pyval :=
  onscreen_message None None ;;;
  ret PyNone.

(** The [cancmap] property. *)
Definition cancmap : M bool := gets (fun w => feature_allow w "cmap").

Definition restore_contrast (msg : pyval) : M pyval :=
  v <- gets viewer ;;
  settings_set (v_settings v)
    [("contrast", PyFloat (Fin (1 # 2))); ("brightness", PyFloat (Fin (1 # 2)))] ;;;
  s <- gets self ;;
  msg <- settings_get (settings s) "msg_cmap" msg ;;
  (if truthy msg
   then onscreen_message (Some "Restored contrast") (Some (1 # 2)%Q)
   else ret tt) ;;;
  ret (PyBool true).

Section Methods.

Context {R : Rounding}.

(** Line 72: the Y cursor position as a fraction of the window height. *)
Definition contrast_pct (y win_ht : Z) : npfloat :=
  truediv (np_clip y 0 win_ht) (float win_ht).

(** Line 76: the X cursor position as a fraction of the window width,
    taken from 1. *)
Definition brightness_pct (x win_wd : Z) : npfloat :=
  fsub (Fin 1) (truediv (np_clip x 0 win_wd) (float win_wd)).

Definition _tweak_colormap (x y : Z) (mode : string) : M pyval :=
  v <- gets viewer ;;
  let '(win_wd, win_ht) := window_size v in
  modify (with_log (cons SuppressRedrawEnter)) ;;;
  settings_set (v_settings v)
    [("contrast", PyFloat (contrast_pct y win_ht));
     ("brightness", PyFloat (brightness_pct x win_wd))] ;;;
  modify (with_log (cons SuppressRedrawExit)) ;;;
  ret PyNone.

(** *** Keyboard action callbacks *)

Definition kp_contrast_restore (data_x data_y : Q) (msg : pyval) : M pyval :=
  can <- cancmap ;;
  if negb can then ret (PyBool false)
  else
    accept ;;;
    s <- gets self ;;
    msg <- settings_get (settings s) "msg_cmap" msg ;;
    restore_contrast msg ;;;
    ret PyNone.

(** *** Mouse action callbacks *)

Definition ms_contrast (data_x data_y : Q) (msg : pyval) : M pyval :=
  can <- cancmap ;;
  if negb can then ret (PyBool false)
  else
    accept ;;;
    s <- gets self ;;
    msg <- settings_get (settings s) "msg_contrast" msg ;;
    v <- gets viewer ;;
    let '(x, y) := win_xy v in
    e <- gets event ;;
    if String.eqb (state e) "move" then
      _tweak_colormap x y "preview" ;;;
      ret PyNone
    else if String.eqb (state e) "down" then
      modify (with_self (fun s =>
        {| settings := settings s; actions := actions s;
           _start_x := Some x; _start_y := Some y |})) ;;;
      (if truthy msg
       then onscreen_message (Some "Shift and stretch colormap (drag mouse)") (Some 1%Q)
       else ret tt) ;;;
      ret PyNone
    else
      onscreen_message None None ;;;
      ret PyNone.

Definition ms_contrast_restore (data_x data_y : Q) (msg : pyval) : M pyval :=
  can <- cancmap ;;
  if negb can then ret (PyBool false)
  else
    accept ;;;
    e <- gets event ;;
    if String.eqb (state e) "down" then
      restore_contrast msg ;;;
      ret PyNone
    else ret PyNone.

End Methods.

(** * Vocabulary of the properties *)

(** The viewer's settings group, as a dictionary. *)
Definition viewer_settings (w : World) : SettingGroup := group w (v_settings (viewer w)).

(** The float stored under a key of the viewer's settings, if there is one. *)
Definition written (w : World) (key : string) : option npfloat :=
  match viewer_settings w !! key with
  | Some (PyFloat v) => Some v
  | _ => None
  end.

(** The keywords that [restore_contrast] passes to [set]. *)
Definition restore_kwargs : list (string * pyval) :=
  [("contrast", PyFloat (Fin (1 # 2))); ("brightness", PyFloat (Fin (1 # 2)))].

(** The world right after the [set] call of [restore_contrast]. *)
Definition restored (w : World) : World :=
  with_store (store_set (v_settings (viewer w)) restore_kwargs) w.

(** The world after [event.accept()]. *)
Definition accepted_world (w : World) : World := exec accept w.

(** The message flag a callback reads from the mode's settings. *)
Definition msg_flag (w : World) (key : string) (msg : pyval) : pyval :=
  default msg (group w (settings (self w)) !! key).

(** The two keywords that [_tweak_colormap] passes to [set]. *)
Definition tweak_kwargs {R : Rounding} (w : World) (x y : Z) : list (string * pyval) :=
  [("contrast", PyFloat (contrast_pct y (snd (window_size (viewer w)))));
   ("brightness", PyFloat (brightness_pct x (fst (window_size (viewer w)))))].

(** The mapping as a plain linear one: the contrast is the float quotient
    [y / win_ht] and the brightness is [1 - x / win_wd], at every cursor
    position. *)
Definition linear_mapping {R : Rounding} (w : World) (x y : Z) (mode : string) : Prop :=
  0 < fst (window_size (viewer w)) →
  0 < snd (window_size (viewer w)) →
  ∃ c b : npfloat,
    written (exec (_tweak_colormap x y mode) w) "contrast" = Some c ∧
    written (exec (_tweak_colormap x y mode) w) "brightness" = Some b ∧
    num_eq c (truediv y (float (snd (window_size (viewer w))))) ∧
    num_eq b (fsub (Fin 1) (truediv x (float (fst (window_size (viewer w)))))).

(** What no method of the mode may change between two worlds: the keys of
    the viewer's settings other than contrast and brightness, every other
    settings group, the viewer, the feature table, the state of the event,
    and the settings group and binding table of the mode. *)
Definition untouched (w w' : World) : Prop :=
  (∀ key : string, key ≠ "contrast" → key ≠ "brightness" →
     viewer_settings w' !! key = viewer_settings w !! key) ∧
  (∀ r : ref, r ≠ v_settings (viewer w) → group w' r = group w r) ∧
  viewer w' = viewer w ∧
  feature_allow w' = feature_allow w ∧
  state (event w') = state (event w) ∧
  settings (self w') = settings (self w) ∧
  actions (self w') = actions (self w).

(** ** Sample worlds *)

(** A viewer whose group (reference 1) already holds a few settings, and a
    mode with a group of its own (reference 2). *)
Definition sample_world (size xy : Z * Z) (st : string) (allow : bool) : World :=
  {| store :=
       <[2%positive := <["msg_cmap" := PyBool true]> ∅]>
       (<[1%positive := <["zoomlevel" := PyInt 3]> (<["contrast" := PyFloat (Fin (3 # 10))]> ∅)]> ∅);
     viewer := {| v_settings := 1%positive; window_size := size; win_xy := xy |};
     feature_allow := fun _ => allow;
     self := __init__ 2%positive;
     event := {| state := st; accepted := false |};
     log := [] |}.

(** A mode and a viewer that share one group. *)
Definition shared_world (size xy : Z * Z) (st : string) (allow : bool) : World :=
  {| store := <[1%positive := <["msg_cmap" := PyBool false]> ∅]> ∅;
     viewer := {| v_settings := 1%positive; window_size := size; win_xy := xy |};
     feature_allow := fun _ => allow;
     self := {| settings := 1%positive; actions := ∅;
                _start_x := Some 7; _start_y := Some 9 |};
     event := {| state := st; accepted := true |};
     log := [OnscreenMessage None None] |}.

(** * Arithmetic of the mapping *)

Section Arithmetic.

Context {R : Rounding}.

Local Open Scope Q_scope.

Lemma rnd_proper (p q : Q) : p == q -> rnd p == rnd q.
Proof.
  intros H. apply Qle_antisym; apply rnd_mono; rewrite H; apply Qle_refl.
Qed.

Lemma rnd_nonneg (q : Q) : 0 <= q -> 0 <= rnd q.
Proof. intros H. rewrite <- rnd_0. by apply rnd_mono. Qed.

Lemma rnd_le_1 (q : Q) : q <= 1 -> rnd q <= 1.
Proof. intros H. rewrite <- rnd_1. by apply rnd_mono. Qed.

Lemma rnd_inject_Z_pos (h : Z) : (0 < h)%Z -> 1 <= rnd (inject_Z h).
Proof.
  intros H. rewrite <- rnd_1. apply rnd_mono.
  change 1 with (inject_Z 1). rewrite <- Zle_Qle. lia.
Qed.

Lemma rnd_inject_Z_nonzero (h : Z) :
  (0 < h)%Z -> Qeq_bool (rnd (inject_Z h)) 0 = false.
Proof.
  intros H. pose proof (rnd_inject_Z_pos h H) as Hq.
  destruct (Qeq_bool (rnd (inject_Z h)) 0) eqn:E; [| reflexivity].
  apply Qeq_bool_iff in E. lra.
Qed.

Lemma rnd_inject_Z_le (a b : Z) : (a <= b)%Z -> rnd (inject_Z a) <= rnd (inject_Z b).
Proof. intros H. apply rnd_mono. by rewrite <- Zle_Qle. Qed.

Lemma ratio_in_unit (p q : Q) : 0 <= p <= q -> 0 < q -> 0 <= p / q <= 1.
Proof.
  intros [Hp Hq] Hpos. split.
  - apply Qle_shift_div_l; [assumption | lra].
  - apply Qle_shift_div_r; [assumption | lra].
Qed.

Lemma np_clip_range (a hi : Z) : (0 <= hi)%Z -> (0 <= np_clip a 0 hi <= hi)%Z.
Proof. unfold np_clip. lia. Qed.

Lemma np_clip_inside (a hi : Z) : (0 <= a <= hi)%Z -> np_clip a 0 hi = a.
Proof. unfold np_clip. lia. Qed.

Lemma np_clip_below (a hi : Z) : (a < 0)%Z -> (0 <= hi)%Z -> np_clip a 0 hi = 0%Z.
Proof. unfold np_clip. lia. Qed.

Lemma np_clip_above (a hi : Z) : (hi < a)%Z -> (0 <= hi)%Z -> np_clip a 0 hi = hi.
Proof. unfold np_clip. lia. Qed.

(** With a positive divisor the division is the rounded quotient. *)
Lemma truediv_pos (n h : Z) :
  (0 < h)%Z ->
  truediv n (float h) = Fin (rnd (rnd (inject_Z n) / rnd (inject_Z h))).
Proof.
  intros H. unfold truediv, float. by rewrite rnd_inject_Z_nonzero.
Qed.

Lemma truediv_unit (n h : Z) :
  (0 <= n <= h)%Z -> (0 < h)%Z -> in_unit (truediv n (float h)).
Proof.
  intros [Hn Hh] H. rewrite truediv_pos by assumption. simpl.
  pose proof (rnd_inject_Z_pos h H) as Hq.
  pose proof (rnd_inject_Z_le 0 n Hn) as H0. pose proof (rnd_inject_Z_le n h Hh) as H1.
  change (inject_Z 0) with 0 in H0. rewrite rnd_0 in H0.
  destruct (ratio_in_unit (rnd (inject_Z n)) (rnd (inject_Z h))) as [L U];
    [split; assumption | lra |].
  split; [by apply rnd_nonneg | by apply rnd_le_1].
Qed.

Lemma contrast_pct_unit (y h : Z) : (0 < h)%Z -> in_unit (contrast_pct y h).
Proof.
  intros H. unfold contrast_pct.
  apply truediv_unit; [apply np_clip_range; lia | assumption].
Qed.

Lemma brightness_pct_unit (x h : Z) : (0 < h)%Z -> in_unit (brightness_pct x h).
Proof.
  intros H. unfold brightness_pct.
  pose proof (truediv_unit (np_clip x 0 h) h) as U.
  destruct (truediv (np_clip x 0 h) (float h)) as [t | | |];
    try (exfalso; apply U; [apply np_clip_range; lia | assumption]).
  simpl in *. destruct U as [U0 U1]; [apply np_clip_range; lia | assumption |].
  split; [apply rnd_nonneg; lra | apply rnd_le_1; lra].
Qed.

(** The values at the edges of the window. *)
Lemma truediv_zero_num (h : Z) : (0 < h)%Z -> is_num (truediv 0 (float h)) 0.
Proof.
  intros H. rewrite truediv_pos by assumption. simpl.
  apply Qeq_trans with (rnd 0); [| apply rnd_0]. apply rnd_proper.
  change (inject_Z 0) with 0. rewrite rnd_0. unfold Qdiv. apply Qmult_0_l.
Qed.

Lemma truediv_same_num (h : Z) : (0 < h)%Z -> is_num (truediv h (float h)) 1.
Proof.
  intros H. rewrite truediv_pos by assumption. simpl.
  pose proof (rnd_inject_Z_pos h H) as Hq.
  apply Qeq_trans with (rnd 1); [| apply rnd_1]. apply rnd_proper. field. lra.
Qed.

(** A window of size zero: the clipped numerator is zero as well, and
    the quotient is [nan]. *)
Lemma contrast_pct_zero (y : Z) : contrast_pct y 0 = NaN.
Proof.
  unfold contrast_pct, truediv, float, np_clip.
  replace (Z.min 0 (Z.max y 0)) with 0%Z by lia.
  change (inject_Z 0) with 0.
  destruct (Qeq_bool (rnd 0) 0) eqn:E; [reflexivity |].
  apply Qeq_bool_neq in E. destruct E. apply rnd_0.
Qed.

Lemma brightness_pct_zero (x : Z) : brightness_pct x 0 = NaN.
Proof.
  unfold brightness_pct, truediv, float, np_clip.
  replace (Z.min 0 (Z.max x 0)) with 0%Z by lia.
  change (inject_Z 0) with 0.
  destruct (Qeq_bool (rnd 0) 0) eqn:E; [reflexivity |].
  apply Qeq_bool_neq in E. destruct E. apply rnd_0.
Qed.

End Arithmetic.

(** * The settings store *)

Section Store.

Implicit Types (st : gmap ref SettingGroup) (r : ref).
Implicit Types (kvs : list (string * pyval)).

Lemma store_set_other st r r' kvs :
  r' ≠ r → store_set r kvs st !! r' = st !! r'.
Proof.
  intros Hne. revert st. induction kvs as [| kv kvs IH]; intros st; [done |].
  unfold store_set in *. simpl. rewrite IH. by rewrite lookup_insert_ne.
Qed.

Lemma store_set_two st r k1 v1 k2 v2 :
  default ∅ (store_set r [(k1, v1); (k2, v2)] st !! r)
  = <[k2 := v2]> (<[k1 := v1]> (default ∅ (st !! r))).
Proof. unfold store_set. simpl. by rewrite !lookup_insert_eq. Qed.

End Store.

(** * What the methods do to the world *)

Section Effects.

Context {R : Rounding}.

Implicit Types (w : World) (x y : Z) (mode : string) (msg : pyval).
Implicit Types (data_x data_y : Q).

Lemma tweak_colormap_exec w x y mode :
  exec (_tweak_colormap x y mode) w
  = with_log (cons SuppressRedrawExit)
      (with_store (store_set (v_settings (viewer w)) (tweak_kwargs w x y))
         (with_log (cons SuppressRedrawEnter) w)).
Proof.
  unfold exec, _tweak_colormap, tweak_kwargs, bind, gets, modify, settings_set, ret.
  by destruct (window_size (viewer w)).
Qed.

Lemma tweak_colormap_settings w x y mode :
  viewer_settings (exec (_tweak_colormap x y mode) w)
  = <["brightness" := PyFloat (brightness_pct x (fst (window_size (viewer w))))]>
      (<["contrast" := PyFloat (contrast_pct y (snd (window_size (viewer w))))]>
         (viewer_settings w)).
Proof.
  rewrite tweak_colormap_exec. unfold viewer_settings, group. simpl.
  apply store_set_two.
Qed.

Lemma tweak_colormap_written w x y mode :
  written (exec (_tweak_colormap x y mode) w) "contrast"
  = Some (contrast_pct y (snd (window_size (viewer w)))) ∧
  written (exec (_tweak_colormap x y mode) w) "brightness"
  = Some (brightness_pct x (fst (window_size (viewer w)))).
Proof.
  unfold written. rewrite tweak_colormap_settings. split.
  - by rewrite lookup_insert_ne, lookup_insert_eq.
  - by rewrite lookup_insert_eq.
Qed.

Lemma restore_contrast_run w msg :
  restore_contrast msg w
  = (PyBool true,
     if truthy (default msg (group (restored w) (settings (self w)) !! "msg_cmap"))
     then with_log (cons (OnscreenMessage (Some "Restored contrast") (Some (1 # 2)%Q)))
            (restored w)
     else restored w).
Proof.
  unfold restore_contrast, bind, gets, modify, settings_set, settings_get,
    onscreen_message, ret, restored, restore_kwargs. simpl.
  by destruct (truthy _).
Qed.

Lemma restored_settings w :
  viewer_settings (restored w)
  = <["brightness" := PyFloat (Fin (1 # 2))]>
      (<["contrast" := PyFloat (Fin (1 # 2))]> (viewer_settings w)).
Proof. unfold viewer_settings, group, restored. simpl. apply store_set_two. Qed.

Lemma restore_contrast_settings w msg :
  viewer_settings (exec (restore_contrast msg) w) = viewer_settings (restored w).
Proof. unfold exec. rewrite restore_contrast_run. simpl. by destruct (truthy _). Qed.

Lemma restore_contrast_written w msg :
  written (exec (restore_contrast msg) w) "contrast" = Some (Fin (1 # 2)) ∧
  written (exec (restore_contrast msg) w) "brightness" = Some (Fin (1 # 2)).
Proof.
  unfold written. rewrite restore_contrast_settings, restored_settings. split.
  - by rewrite lookup_insert_ne, lookup_insert_eq.
  - by rewrite lookup_insert_eq.
Qed.

Lemma kp_contrast_restore_run w data_x data_y msg :
  feature_allow w "cmap" = true →
  kp_contrast_restore data_x data_y msg w
  = (PyNone, exec (restore_contrast (msg_flag w "msg_cmap" msg)) (accepted_world w)).
Proof.
  intros Hcan.
  unfold kp_contrast_restore, cancmap, bind, gets, ret, exec. simpl.
  rewrite Hcan. simpl.
  unfold settings_get, gets, msg_flag, accepted_world, exec. simpl.
  by destruct (restore_contrast _ _).
Qed.

Lemma ms_contrast_restore_run w data_x data_y msg :
  feature_allow w "cmap" = true →
  ms_contrast_restore data_x data_y msg w
  = (PyNone,
     if String.eqb (state (event w)) "down"
     then exec (restore_contrast msg) (accepted_world w)
     else accepted_world w).
Proof.
  intros Hcan.
  unfold ms_contrast_restore, cancmap, bind, gets, ret, exec. simpl.
  rewrite Hcan. simpl.
  destruct (String.eqb (state (event w)) "down"); [| done].
  unfold accepted_world, exec. simpl. by destruct (restore_contrast _ _).
Qed.

Lemma ms_contrast_run w data_x data_y msg :
  feature_allow w "cmap" = true →
  ms_contrast data_x data_y msg w
  = (PyNone,
     if String.eqb (state (event w)) "move" then
       exec (_tweak_colormap (fst (win_xy (viewer w))) (snd (win_xy (viewer w))) "preview")
         (accepted_world w)
     else if String.eqb (state (event w)) "down" then
       let w1 :=
         with_self (fun s =>
           {| settings := settings s; actions := actions s;
              _start_x := Some (fst (win_xy (viewer w)));
              _start_y := Some (snd (win_xy (viewer w))) |}) (accepted_world w) in
       if truthy (msg_flag w "msg_contrast" msg)
       then with_log (cons (OnscreenMessage
                              (Some "Shift and stretch colormap (drag mouse)")
                              (Some 1%Q))) w1
       else w1
     else with_log (cons (OnscreenMessage None None)) (accepted_world w)).
Proof.
  intros Hcan.
  unfold ms_contrast, cancmap, bind, gets, ret. simpl.
  rewrite Hcan. simpl.
  destruct (win_xy (viewer w)) as [x y] eqn:Exy. simpl.
  destruct (String.eqb (state (event w)) "move").
  - unfold accepted_world, exec. simpl. by destruct (_tweak_colormap _ _ _ _).
  - destruct (String.eqb (state (event w)) "down"); [| done].
    unfold settings_get, gets, msg_flag. simpl.
    by destruct (truthy _).
Qed.

Lemma kp_contrast_restore_refused w data_x data_y msg :
  feature_allow w "cmap" = false →
  kp_contrast_restore data_x data_y msg w = (PyBool false, w).
Proof.
  intros Hcan. unfold kp_contrast_restore, cancmap, bind, gets, ret.
  by rewrite Hcan.
Qed.

Lemma ms_contrast_refused w data_x data_y msg :
  feature_allow w "cmap" = false →
  ms_contrast data_x data_y msg w = (PyBool false, w).
Proof.
  intros Hcan. unfold ms_contrast, cancmap, bind, gets, ret.
  by rewrite Hcan.
Qed.

Lemma ms_contrast_restore_refused w data_x data_y msg :
  feature_allow w "cmap" = false →
  ms_contrast_restore data_x data_y msg w = (PyBool false, w).
Proof.
  intros Hcan. unfold ms_contrast_restore, cancmap, bind, gets, ret.
  by rewrite Hcan.
Qed.

End Effects.

(** * The coordinate mapping of [_tweak_colormap] *)

Section TweakColormap.

Context {R : Rounding}.

Implicit Types (w : World) (x y : Z) (mode : string).

(** C1.  For a window of positive width and height, the contrast and the
    brightness that [_tweak_colormap] stores in the viewer's settings are
    numbers of the closed interval [0, 1], whatever the cursor position. *)
Theorem tweak_colormap_normalized w x y mode :
  0 < fst (window_size (viewer w)) →
  0 < snd (window_size (viewer w)) →
  ∃ c b : npfloat,
    written (exec (_tweak_colormap x y mode) w) "contrast" = Some c ∧
    written (exec (_tweak_colormap x y mode) w) "brightness" = Some b ∧
    in_unit c ∧ in_unit b.
Proof.
  intros Hwd Hht.
  destruct (tweak_colormap_written w x y mode) as [Hc Hb].
  eexists _, _. split; [exact Hc |]. split; [exact Hb |].
  split; [by apply contrast_pct_unit | by apply brightness_pct_unit].
Qed.

(** C2, amended.  For a window of positive width and height the mapping is
    linear in the cursor coordinates clipped to the window: the contrast is
    [clip(y, 0, win_ht) / win_ht] and the brightness is
    [1 - clip(x, 0, win_wd) / win_wd].  So a cursor inside the window gives
    [y / win_ht] and [1 - x / win_wd], and a cursor outside gives the value
    of the nearest edge: 0 or 1. *)
Theorem tweak_colormap_clipped_linear w x y mode :
  0 < fst (window_size (viewer w)) →
  0 < snd (window_size (viewer w)) →
  ∃ c b : npfloat,
    written (exec (_tweak_colormap x y mode) w) "contrast" = Some c ∧
    written (exec (_tweak_colormap x y mode) w) "brightness" = Some b ∧
    num_eq c (truediv (np_clip y 0 (snd (window_size (viewer w))))
                (float (snd (window_size (viewer w))))) ∧
    num_eq b (fsub (Fin 1)
                (truediv (np_clip x 0 (fst (window_size (viewer w))))
                   (float (fst (window_size (viewer w)))))) ∧
    (0 ≤ y ≤ snd (window_size (viewer w)) →
     num_eq c (truediv y (float (snd (window_size (viewer w)))))) ∧
    (0 ≤ x ≤ fst (window_size (viewer w)) →
     num_eq b (fsub (Fin 1) (truediv x (float (fst (window_size (viewer w))))))) ∧
    (y < 0 → is_num c 0) ∧
    (snd (window_size (viewer w)) < y → is_num c 1) ∧
    (x < 0 → is_num b 1) ∧
    (fst (window_size (viewer w)) < x → is_num b 0).
Proof.
  intros Hwd Hht.
  destruct (tweak_colormap_written w x y mode) as [Hc Hb].
  set (wd := fst (window_size (viewer w))) in *.
  set (ht := snd (window_size (viewer w))) in *.
  eexists _, _. split; [exact Hc |]. split; [exact Hb |].
  unfold contrast_pct, brightness_pct.
  assert (Hrefl : ∀ n h, 0 < h → num_eq (truediv n (float h)) (truediv n (float h))).
  { intros n h Hh. rewrite truediv_pos by assumption. simpl. reflexivity. }
  assert (Hrefl' : ∀ n h, 0 < h →
            num_eq (fsub (Fin 1) (truediv n (float h)))
                   (fsub (Fin 1) (truediv n (float h)))).
  { intros n h Hh. rewrite truediv_pos by assumption. simpl. reflexivity. }
  repeat apply conj; intros.
  - by apply Hrefl.
  - by apply Hrefl'.
  - rewrite np_clip_inside by assumption. by apply Hrefl.
  - rewrite np_clip_inside by assumption. by apply Hrefl'.
  - rewrite np_clip_below by lia. by apply truediv_zero_num.
  - rewrite np_clip_above by lia. by apply truediv_same_num.
  - rewrite np_clip_below by lia.
    pose proof (truediv_zero_num wd Hwd) as Hz.
    destruct (truediv 0 (float wd)) as [t | | |]; try contradiction.
    simpl in *. apply Qeq_trans with (rnd 1); [| apply rnd_1].
    apply rnd_proper. rewrite Hz. ring.
  - rewrite np_clip_above by lia.
    pose proof (truediv_same_num wd Hwd) as Hz.
    destruct (truediv wd (float wd)) as [t | | |]; try contradiction.
    simpl in *. apply Qeq_trans with (rnd 0); [| apply rnd_0].
    apply rnd_proper. rewrite Hz. ring.
Qed.

(** C7.  The two divisions of [_tweak_colormap] have no guard.  For a
    window of positive width and height neither divisor is zero and both
    quotients are finite numbers; for a window of height (width) zero the
    value stored as contrast (brightness) is [nan], not a number. *)
Theorem tweak_colormap_division w x y mode :
  (0 < fst (window_size (viewer w)) →
   0 < snd (window_size (viewer w)) →
   ¬ is_num (float (fst (window_size (viewer w)))) 0 ∧
   ¬ is_num (float (snd (window_size (viewer w)))) 0 ∧
   ∃ c b : Q,
     written (exec (_tweak_colormap x y mode) w) "contrast" = Some (Fin c) ∧
     written (exec (_tweak_colormap x y mode) w) "brightness" = Some (Fin b)) ∧
  (snd (window_size (viewer w)) = 0 →
   written (exec (_tweak_colormap x y mode) w) "contrast" = Some NaN) ∧
  (fst (window_size (viewer w)) = 0 →
   written (exec (_tweak_colormap x y mode) w) "brightness" = Some NaN).
Proof.
  destruct (tweak_colormap_written w x y mode) as [Hc Hb].
  repeat apply conj.
  - intros Hwd Hht.
    pose proof (rnd_inject_Z_pos _ Hwd) as Qwd.
    pose proof (rnd_inject_Z_pos _ Hht) as Qht.
    split; [simpl; lra |]. split; [simpl; lra |].
    unfold contrast_pct in Hc. unfold brightness_pct in Hb.
    rewrite truediv_pos in Hc, Hb by assumption. simpl in Hb.
    eexists _, _. split; [exact Hc | exact Hb].
  - intros Hht. rewrite Hht in Hc. by rewrite contrast_pct_zero in Hc.
  - intros Hwd. rewrite Hwd in Hb. by rewrite brightness_pct_zero in Hb.
Qed.

(** C8.  [_tweak_colormap] changes the viewer's settings group at the keys
    contrast and brightness only: every other key of that group, every
    other settings group, and the mode, viewer, event and feature table are
    as before. *)
Theorem tweak_colormap_frame w x y mode :
  (∀ key : string, key ≠ "contrast" → key ≠ "brightness" →
     viewer_settings (exec (_tweak_colormap x y mode) w) !! key
     = viewer_settings w !! key) ∧
  (∀ r : ref, r ≠ v_settings (viewer w) →
     group (exec (_tweak_colormap x y mode) w) r = group w r) ∧
  self (exec (_tweak_colormap x y mode) w) = self w ∧
  viewer (exec (_tweak_colormap x y mode) w) = viewer w ∧
  event (exec (_tweak_colormap x y mode) w) = event w ∧
  feature_allow (exec (_tweak_colormap x y mode) w) = feature_allow w.
Proof.
  split.
  - intros key Hc Hb. rewrite tweak_colormap_settings.
    by rewrite !lookup_insert_ne.
  - rewrite tweak_colormap_exec. split; [| done].
    intros r Hr. unfold group. simpl. by rewrite store_set_other.
Qed.

(** C10.  The contrast and brightness that [_tweak_colormap] stores depend
    on the cursor position and the window size alone: two calls with the
    same position in windows of the same size store the same two values,
    whatever the rest of the two worlds and the [mode] argument are. *)
Theorem tweak_colormap_deterministic w1 w2 x y mode1 mode2 :
  window_size (viewer w1) = window_size (viewer w2) →
  written (exec (_tweak_colormap x y mode1) w1) "contrast"
  = written (exec (_tweak_colormap x y mode2) w2) "contrast" ∧
  written (exec (_tweak_colormap x y mode1) w1) "brightness"
  = written (exec (_tweak_colormap x y mode2) w2) "brightness".
Proof.
  intros Hsize.
  destruct (tweak_colormap_written w1 x y mode1) as [-> ->].
  destruct (tweak_colormap_written w2 x y mode2) as [-> ->].
  by rewrite Hsize.
Qed.

End TweakColormap.

Lemma tweak_colormap_normalized_witness :
  ∃ c b : npfloat,
    written (exec (_tweak_colormap (R := fixed_point 16) 4 5 "preview")
               (sample_world (10, 8) (4, 5) "move" true)) "contrast" = Some c ∧
    written (exec (_tweak_colormap (R := fixed_point 16) 4 5 "preview")
               (sample_world (10, 8) (4, 5) "move" true)) "brightness" = Some b ∧
    in_unit c ∧ in_unit b.
Proof.
  apply (tweak_colormap_normalized (R := fixed_point 16)
           (sample_world (10, 8) (4, 5) "move" true));
    simpl; lia.
Defined.

(** C2, as stated, fails: with the cursor at y = 20 in a window of height
    10 the stored contrast is 10 / 10, not 20 / 10.  All the numbers
    involved are small integers, so no rounding takes part. *)
Lemma linear_mapping_fails_outside_window :
  ¬ linear_mapping (R := exact_arith)
      (sample_world (10, 10) (0, 20) "move" true) 0 20 "preview".
Proof.
  intros H. destruct H as (c & b & Hc & _ & Nc & _); [simpl; lia | simpl; lia |].
  vm_compute in Hc. injection Hc as <-. vm_compute in Nc. discriminate Nc.
Qed.

Lemma tweak_colormap_clipped_linear_witness :
  ∃ c b : npfloat,
    written (exec (_tweak_colormap (R := exact_arith) 4 6 "preview")
               (sample_world (10, 8) (4, 6) "move" true)) "contrast" = Some c ∧
    written (exec (_tweak_colormap (R := exact_arith) 4 6 "preview")
               (sample_world (10, 8) (4, 6) "move" true)) "brightness" = Some b ∧
    num_eq c (Fin (6 # 8)) ∧ num_eq b (Fin (6 # 10)).
Proof.
  destruct (tweak_colormap_clipped_linear (R := exact_arith)
              (sample_world (10, 8) (4, 6) "move" true) 4 6 "preview")
    as (c & b & Hc & Hb & _ & _ & Yin & Xin & _); [simpl; lia | simpl; lia |].
  exists c, b. split; [exact Hc |]. split; [exact Hb |].
  specialize (Yin ltac:(simpl; lia)). specialize (Xin ltac:(simpl; lia)).
  destruct c as [p | | |]; try contradiction.
  destruct b as [q | | |]; try contradiction.
  simpl in *. split.
  - rewrite Yin. reflexivity.
  - rewrite Xin. reflexivity.
Defined.

Lemma tweak_colormap_division_witness :
  (∃ c b : Q,
     written (exec (_tweak_colormap (R := exact_arith) 3 5 "preview")
                (sample_world (10, 8) (3, 5) "move" true)) "contrast" = Some (Fin c) ∧
     written (exec (_tweak_colormap (R := exact_arith) 3 5 "preview")
                (sample_world (10, 8) (3, 5) "move" true)) "brightness" = Some (Fin b)) ∧
  written (exec (_tweak_colormap (R := exact_arith) 3 5 "preview")
             (sample_world (0, 0) (3, 5) "move" true)) "contrast" = Some NaN ∧
  written (exec (_tweak_colormap (R := exact_arith) 3 5 "preview")
             (sample_world (0, 0) (3, 5) "move" true)) "brightness" = Some NaN.
Proof.
  split.
  - apply (tweak_colormap_division (R := exact_arith)
             (sample_world (10, 8) (3, 5) "move" true));
      simpl; lia.
  - split;
      apply (tweak_colormap_division (R := exact_arith)
               (sample_world (0, 0) (3, 5) "move" true));
      reflexivity.
Defined.

Lemma tweak_colormap_frame_witness :
  viewer_settings (exec (_tweak_colormap (R := exact_arith) 3 5 "preview")
                     (shared_world (10, 8) (3, 5) "move" true)) !! "msg_cmap"
  = Some (PyBool false) ∧
  group (exec (_tweak_colormap (R := exact_arith) 3 5 "preview")
           (sample_world (10, 8) (3, 5) "move" true)) 2%positive
  = <["msg_cmap" := PyBool true]> ∅ ∧
  _start_x (self (exec (_tweak_colormap (R := exact_arith) 3 5 "preview")
                    (shared_world (10, 8) (3, 5) "move" true))) = Some 7.
Proof.
  split; [| split].
  - by rewrite (proj1 (tweak_colormap_frame (R := exact_arith)
                         (shared_world (10, 8) (3, 5) "move" true) 3 5 "preview")).
  - by rewrite (proj1 (proj2 (tweak_colormap_frame (R := exact_arith)
                         (sample_world (10, 8) (3, 5) "move" true) 3 5 "preview"))).
  - by rewrite (proj1 (proj2 (proj2 (tweak_colormap_frame (R := exact_arith)
                         (shared_world (10, 8) (3, 5) "move" true) 3 5 "preview")))).
Defined.

Lemma tweak_colormap_deterministic_witness :
  written (exec (_tweak_colormap (R := fixed_point 16) 3 5 "preview")
             (sample_world (10, 8) (3, 5) "move" true)) "contrast"
  = written (exec (_tweak_colormap (R := fixed_point 16) 3 5 "final")
               (shared_world (10, 8) (0, 0) "up" false)) "contrast" ∧
  written (exec (_tweak_colormap (R := fixed_point 16) 3 5 "preview")
             (sample_world (10, 8) (3, 5) "move" true)) "brightness"
  = written (exec (_tweak_colormap (R := fixed_point 16) 3 5 "final")
               (shared_world (10, 8) (0, 0) "up" false)) "brightness".
Proof.
  apply (tweak_colormap_deterministic (R := fixed_point 16)
           (sample_world (10, 8) (3, 5) "move" true)
           (shared_world (10, 8) (0, 0) "up" false)).
  reflexivity.
Defined.

(** * The callbacks *)

Section Callbacks.

Context {R : Rounding}.

Implicit Types (w : World) (data_x data_y : Q) (msg : pyval).

(** C3.  [ms_contrast] with the cmap feature allowed.  On a move event the
    viewer's settings get the contrast and brightness computed from the
    window cursor position and the window size.  On a down event no
    settings group changes and the cursor position is kept in [_start_x],
    [_start_y], the mode being otherwise as before.  On any other event no
    settings group changes. *)
Theorem ms_contrast_by_state w data_x data_y msg :
  feature_allow w "cmap" = true →
  (state (event w) = "move" →
   written (exec (ms_contrast data_x data_y msg) w) "contrast"
   = Some (contrast_pct (snd (win_xy (viewer w))) (snd (window_size (viewer w)))) ∧
   written (exec (ms_contrast data_x data_y msg) w) "brightness"
   = Some (brightness_pct (fst (win_xy (viewer w))) (fst (window_size (viewer w))))) ∧
  (state (event w) = "down" →
   store (exec (ms_contrast data_x data_y msg) w) = store w ∧
   _start_x (self (exec (ms_contrast data_x data_y msg) w))
   = Some (fst (win_xy (viewer w))) ∧
   _start_y (self (exec (ms_contrast data_x data_y msg) w))
   = Some (snd (win_xy (viewer w))) ∧
   settings (self (exec (ms_contrast data_x data_y msg) w)) = settings (self w) ∧
   actions (self (exec (ms_contrast data_x data_y msg) w)) = actions (self w)) ∧
  (state (event w) ≠ "move" → state (event w) ≠ "down" →
   store (exec (ms_contrast data_x data_y msg) w) = store w).
Proof.
  intros Hcan. unfold exec at 1 2 3 4 5 6 7 8.
  rewrite ms_contrast_run by assumption. simpl.
  repeat apply conj.
  - intros ->. simpl. apply (tweak_colormap_written (accepted_world w)).
  - intros ->. simpl. by destruct (truthy _).
  - intros Hmove Hdown.
    apply String.eqb_neq in Hmove, Hdown. by rewrite Hmove, Hdown.
Qed.

(** C4.  [kp_contrast_restore] with the cmap feature allowed writes both
    the contrast and the brightness of the viewer's settings (each becomes
    0.5), accepts the event and returns [None]. *)
Theorem kp_contrast_restore_writes w data_x data_y msg :
  feature_allow w "cmap" = true →
  written (exec (kp_contrast_restore data_x data_y msg) w) "contrast"
  = Some (Fin (1 # 2)) ∧
  written (exec (kp_contrast_restore data_x data_y msg) w) "brightness"
  = Some (Fin (1 # 2)) ∧
  accepted (event (exec (kp_contrast_restore data_x data_y msg) w)) = true ∧
  result (kp_contrast_restore data_x data_y msg) w = PyNone.
Proof.
  intros Hcan. unfold exec at 1 2 3, result.
  rewrite kp_contrast_restore_run by assumption. simpl.
  destruct (restore_contrast_written (accepted_world w) (msg_flag w "msg_cmap" msg))
    as [Hc Hb].
  repeat apply conj; [exact Hc | exact Hb | | reflexivity].
  unfold exec. rewrite restore_contrast_run. simpl. by destruct (truthy _).
Qed.

(** C5.  [restore_contrast] always stores exactly 0.5 as contrast and 0.5
    as brightness in the viewer's settings and returns [True].
    [ms_contrast_restore] performs that restore when it is allowed and the
    event state is down, and leaves every settings group alone when the
    state is anything else. *)
Theorem restore_contrast_half :
  (∀ w msg,
     result (restore_contrast msg) w = PyBool true ∧
     written (exec (restore_contrast msg) w) "contrast" = Some (Fin (1 # 2)) ∧
     written (exec (restore_contrast msg) w) "brightness" = Some (Fin (1 # 2))) ∧
  (∀ w data_x data_y msg,
     state (event w) ≠ "down" →
     store (exec (ms_contrast_restore data_x data_y msg) w) = store w) ∧
  (∀ w data_x data_y msg,
     feature_allow w "cmap" = true →
     state (event w) = "down" →
     exec (ms_contrast_restore data_x data_y msg) w
     = exec (restore_contrast msg) (accepted_world w)).
Proof.
  repeat apply conj.
  - intros w msg. split; [| apply restore_contrast_written].
    unfold result. by rewrite restore_contrast_run.
  - intros w data_x data_y msg Hstate. unfold exec.
    destruct (feature_allow w "cmap") eqn:Hcan.
    + rewrite ms_contrast_restore_run by assumption. simpl.
      apply String.eqb_neq in Hstate. by rewrite Hstate.
    + by rewrite ms_contrast_restore_refused.
  - intros w data_x data_y msg Hcan Hstate. unfold exec at 1.
    rewrite ms_contrast_restore_run by assumption. simpl.
    by rewrite Hstate.
Qed.

(** C6.  When the cmap feature is not allowed, [kp_contrast_restore],
    [ms_contrast] and [ms_contrast_restore] each return [False] and leave
    the whole world as it was: the event is not accepted and no setting
    changes. *)
Theorem callbacks_refused w data_x data_y msg :
  feature_allow w "cmap" = false →
  (result (kp_contrast_restore data_x data_y msg) w = PyBool false ∧
   exec (kp_contrast_restore data_x data_y msg) w = w) ∧
  (result (ms_contrast data_x data_y msg) w = PyBool false ∧
   exec (ms_contrast data_x data_y msg) w = w) ∧
  (result (ms_contrast_restore data_x data_y msg) w = PyBool false ∧
   exec (ms_contrast_restore data_x data_y msg) w = w).
Proof.
  intros Hcan. unfold result, exec.
  by rewrite kp_contrast_restore_refused, ms_contrast_refused,
    ms_contrast_restore_refused.
Qed.

End Callbacks.

Lemma ms_contrast_by_state_witness :
  (written (exec (ms_contrast (R := exact_arith) 0%Q 0%Q (PyBool true))
              (sample_world (10, 8) (4, 6) "move" true)) "contrast"
   = Some (Fin (6 # 8)) ∧
   written (exec (ms_contrast (R := exact_arith) 0%Q 0%Q (PyBool true))
              (sample_world (10, 8) (4, 6) "move" true)) "brightness"
   = Some (Fin (1 - (4 # 10)))) ∧
  (store (exec (ms_contrast (R := exact_arith) 0%Q 0%Q (PyBool true))
            (sample_world (10, 8) (4, 6) "down" true))
   = store (sample_world (10, 8) (4, 6) "down" true) ∧
   _start_x (self (exec (ms_contrast (R := exact_arith) 0%Q 0%Q (PyBool true))
                     (sample_world (10, 8) (4, 6) "down" true))) = Some 4) ∧
  store (exec (ms_contrast (R := exact_arith) 0%Q 0%Q (PyBool true))
           (sample_world (10, 8) (4, 6) "up" true))
  = store (sample_world (10, 8) (4, 6) "up" true).
Proof.
  split; [| split].
  - apply (ms_contrast_by_state (R := exact_arith)
             (sample_world (10, 8) (4, 6) "move" true));
      reflexivity.
  - pose proof (proj1 (proj2 (ms_contrast_by_state (R := exact_arith)
      (sample_world (10, 8) (4, 6) "down" true) 0%Q 0%Q (PyBool true) eq_refl)) eq_refl)
      as (Hst & Hx & _).
    split; [exact Hst | exact Hx].
  - apply (ms_contrast_by_state (R := exact_arith)
             (sample_world (10, 8) (4, 6) "up" true));
      [reflexivity | discriminate | discriminate].
Defined.

Lemma kp_contrast_restore_writes_witness :
  written (exec (kp_contrast_restore 0%Q 0%Q (PyBool true))
             (sample_world (10, 8) (4, 6) "keydown" true)) "contrast"
  = Some (Fin (1 # 2)) ∧
  written (exec (kp_contrast_restore 0%Q 0%Q (PyBool true))
             (sample_world (10, 8) (4, 6) "keydown" true)) "brightness"
  = Some (Fin (1 # 2)) ∧
  accepted (event (exec (kp_contrast_restore 0%Q 0%Q (PyBool true))
                     (sample_world (10, 8) (4, 6) "keydown" true))) = true ∧
  result (kp_contrast_restore 0%Q 0%Q (PyBool true))
    (sample_world (10, 8) (4, 6) "keydown" true) = PyNone.
Proof.
  apply (kp_contrast_restore_writes (sample_world (10, 8) (4, 6) "keydown" true)).
  reflexivity.
Defined.

Lemma restore_contrast_half_witness :
  store (exec (ms_contrast_restore 0%Q 0%Q (PyBool true))
           (sample_world (10, 8) (4, 6) "move" true))
  = store (sample_world (10, 8) (4, 6) "move" true) ∧
  written (exec (ms_contrast_restore 0%Q 0%Q (PyBool true))
             (sample_world (10, 8) (4, 6) "down" true)) "contrast"
  = Some (Fin (1 # 2)).
Proof.
  split.
  - apply (proj1 (proj2 restore_contrast_half)). discriminate.
  - rewrite (proj2 (proj2 restore_contrast_half)
               (sample_world (10, 8) (4, 6) "down" true) 0%Q 0%Q (PyBool true)
               eq_refl eq_refl).
    apply (proj1 restore_contrast_half).
Defined.

Lemma callbacks_refused_witness :
  (result (kp_contrast_restore 0%Q 0%Q (PyBool true))
     (sample_world (10, 8) (4, 6) "down" false) = PyBool false ∧
   exec (kp_contrast_restore 0%Q 0%Q (PyBool true))
     (sample_world (10, 8) (4, 6) "down" false)
   = sample_world (10, 8) (4, 6) "down" false) ∧
  (result (ms_contrast (R := exact_arith) 0%Q 0%Q (PyBool true))
     (sample_world (10, 8) (4, 6) "down" false) = PyBool false ∧
   exec (ms_contrast (R := exact_arith) 0%Q 0%Q (PyBool true))
     (sample_world (10, 8) (4, 6) "down" false)
   = sample_world (10, 8) (4, 6) "down" false) ∧
  (result (ms_contrast_restore 0%Q 0%Q (PyBool true))
     (sample_world (10, 8) (4, 6) "down" false) = PyBool false ∧
   exec (ms_contrast_restore 0%Q 0%Q (PyBool true))
     (sample_world (10, 8) (4, 6) "down" false)
   = sample_world (10, 8) (4, 6) "down" false).
Proof.
  apply (callbacks_refused (R := exact_arith)
           (sample_world (10, 8) (4, 6) "down" false)).
  reflexivity.
Defined.

(** * The binding table *)

(** C9.  The table that [__init__] builds has exactly four entries:
    dmod_contrast, kp_contrast_restore, ms_contrast and
    ms_contrast_restore, each with the bindings listed in the source. *)
Theorem init_actions (settings_ref : ref) :
  dom (actions (__init__ settings_ref))
  = ({["dmod_contrast"; "kp_contrast_restore"; "ms_contrast"; "ms_contrast_restore"]}
     : gset string) ∧
  actions (__init__ settings_ref) !! "dmod_contrast"
  = Some [Some "__t"; None; None] ∧
  actions (__init__ settings_ref) !! "kp_contrast_restore"
  = Some [Some "T"; Some "contrast+t"; Some "contrast+T"] ∧
  actions (__init__ settings_ref) !! "ms_contrast"
  = Some [Some "contrast+left"; Some "ctrl+right"] ∧
  actions (__init__ settings_ref) !! "ms_contrast_restore"
  = Some [Some "contrast+right"; Some "ctrl+middle"].
Proof.
  split.
  - simpl. rewrite !dom_insert_L, dom_empty_L. set_solver.
  - repeat split; reflexivity.
Qed.

(** * Further properties of the mode *)

(** ** Two keywords stored over two keywords *)

Section StoreAlgebra.

Implicit Types (st : gmap ref SettingGroup) (r : ref) (g : SettingGroup).
Implicit Types (k : string) (a b : pyval).

Lemma store_set_two_eq st r k1 a k2 b :
  store_set r [(k1, a); (k2, b)] st
  = <[r := <[k2 := b]> (<[k1 := a]> (default ∅ (st !! r)))]> st.
Proof.
  unfold store_set. simpl. by rewrite lookup_insert_eq, insert_insert_eq.
Qed.

Lemma insert_two_absorb g k1 k2 a b a' b' :
  <[k2 := b]> (<[k1 := a]> (<[k2 := b']> (<[k1 := a']> g)))
  = <[k2 := b]> (<[k1 := a]> g).
Proof.
  apply map_eq. intros k.
  destruct (decide (k = k2)) as [-> | N2]; [by rewrite !lookup_insert_eq |].
  destruct (decide (k = k1)) as [-> | N1]; by simplify_map_eq.
Qed.

Lemma store_set_two_absorb st r k1 k2 a b a' b' :
  store_set r [(k1, a); (k2, b)] (store_set r [(k1, a'); (k2, b')] st)
  = store_set r [(k1, a); (k2, b)] st.
Proof.
  rewrite !store_set_two_eq. rewrite lookup_insert_eq. simpl.
  by rewrite insert_two_absorb, insert_insert_eq.
Qed.

Lemma store_set_two_dom st r k1 a k2 b :
  dom (default ∅ (store_set r [(k1, a); (k2, b)] st !! r))
  = {[k1; k2]} ∪ dom (default ∅ (st !! r)).
Proof.
  rewrite store_set_two. rewrite !dom_insert_L.
  apply set_eq. intros k. rewrite !elem_of_union, !elem_of_singleton. tauto.
Qed.

End StoreAlgebra.

(** ** Order of the mapping *)

Section Order.

Context {R : Rounding}.

Local Open Scope Q_scope.

Lemma np_clip_mono (a1 a2 hi : Z) :
  (a1 <= a2)%Z -> (np_clip a1 0 hi <= np_clip a2 0 hi)%Z.
Proof. unfold np_clip. lia. Qed.

Lemma truediv_mono (n1 n2 h : Z) :
  (0 < h)%Z -> (n1 <= n2)%Z ->
  num_le (truediv n1 (float h)) (truediv n2 (float h)).
Proof.
  intros H Hn. rewrite !truediv_pos by assumption. simpl.
  pose proof (rnd_inject_Z_pos h H) as Hq.
  apply rnd_mono. unfold Qdiv. apply Qmult_le_compat_r.
  - by apply rnd_inject_Z_le.
  - apply Qinv_le_0_compat. lra.
Qed.

Lemma contrast_pct_mono (y1 y2 h : Z) :
  (0 < h)%Z -> (y1 <= y2)%Z -> num_le (contrast_pct y1 h) (contrast_pct y2 h).
Proof.
  intros H Hy. unfold contrast_pct. apply truediv_mono; [assumption |].
  by apply np_clip_mono.
Qed.

Lemma brightness_pct_anti (x1 x2 h : Z) :
  (0 < h)%Z -> (x1 <= x2)%Z -> num_le (brightness_pct x2 h) (brightness_pct x1 h).
Proof.
  intros H Hx. unfold brightness_pct.
  pose proof (truediv_mono (np_clip x1 0 h) (np_clip x2 0 h) h H
                (np_clip_mono x1 x2 h Hx)) as Hle.
  destruct (truediv (np_clip x1 0 h) (float h)) as [t1 | | |]; try contradiction.
  destruct (truediv (np_clip x2 0 h) (float h)) as [t2 | | |]; try contradiction.
  simpl in *. apply rnd_mono. lra.
Qed.

Lemma contrast_pct_low (h : Z) : (0 < h)%Z -> is_num (contrast_pct 0 h) 0.
Proof.
  intros H. unfold contrast_pct. rewrite np_clip_inside by lia.
  by apply truediv_zero_num.
Qed.

Lemma contrast_pct_high (h : Z) : (0 < h)%Z -> is_num (contrast_pct h h) 1.
Proof.
  intros H. unfold contrast_pct. rewrite np_clip_inside by lia.
  by apply truediv_same_num.
Qed.

Lemma brightness_pct_low (h : Z) : (0 < h)%Z -> is_num (brightness_pct 0 h) 1.
Proof.
  intros H. unfold brightness_pct. rewrite np_clip_inside by lia.
  pose proof (truediv_zero_num h H) as Hz.
  destruct (truediv 0 (float h)) as [t | | |]; try contradiction.
  simpl in *. apply Qeq_trans with (rnd 1); [| apply rnd_1].
  apply rnd_proper. rewrite Hz. ring.
Qed.

Lemma brightness_pct_high (h : Z) : (0 < h)%Z -> is_num (brightness_pct h h) 0.
Proof.
  intros H. unfold brightness_pct. rewrite np_clip_inside by lia.
  pose proof (truediv_same_num h H) as Hz.
  destruct (truediv h (float h)) as [t | | |]; try contradiction.
  simpl in *. apply Qeq_trans with (rnd 0); [| apply rnd_0].
  apply rnd_proper. rewrite Hz. ring.
Qed.

Implicit Types (w : World) (mode : string).

(** X1.  In a window of positive size, moving the cursor towards larger y
    never lowers the stored contrast and moving it towards larger x never
    raises the stored brightness. *)
Theorem tweak_colormap_monotone w (x1 y1 x2 y2 : Z) mode :
  (0 < fst (window_size (viewer w)))%Z →
  (0 < snd (window_size (viewer w)))%Z →
  (x1 <= x2)%Z → (y1 <= y2)%Z →
  ∃ c1 b1 c2 b2 : npfloat,
    written (exec (_tweak_colormap x1 y1 mode) w) "contrast" = Some c1 ∧
    written (exec (_tweak_colormap x1 y1 mode) w) "brightness" = Some b1 ∧
    written (exec (_tweak_colormap x2 y2 mode) w) "contrast" = Some c2 ∧
    written (exec (_tweak_colormap x2 y2 mode) w) "brightness" = Some b2 ∧
    num_le c1 c2 ∧ num_le b2 b1.
Proof.
  intros Hwd Hht Hx Hy.
  destruct (tweak_colormap_written w x1 y1 mode) as [Hc1 Hb1].
  destruct (tweak_colormap_written w x2 y2 mode) as [Hc2 Hb2].
  eexists _, _, _, _.
  split; [exact Hc1 |]. split; [exact Hb1 |].
  split; [exact Hc2 |]. split; [exact Hb2 |].
  split; [by apply contrast_pct_mono | by apply brightness_pct_anti].
Qed.

(** X2.  In a window of positive size the ends of the range are reached at
    the corners: the cursor at (0, 0) stores contrast 0 and brightness 1,
    the cursor at (win_wd, win_ht) stores contrast 1 and brightness 0. *)
Theorem tweak_colormap_corners w mode :
  (0 < fst (window_size (viewer w)))%Z →
  (0 < snd (window_size (viewer w)))%Z →
  ∃ c0 b0 c1 b1 : npfloat,
    written (exec (_tweak_colormap 0 0 mode) w) "contrast" = Some c0 ∧
    written (exec (_tweak_colormap 0 0 mode) w) "brightness" = Some b0 ∧
    written (exec (_tweak_colormap (fst (window_size (viewer w)))
                     (snd (window_size (viewer w))) mode) w) "contrast" = Some c1 ∧
    written (exec (_tweak_colormap (fst (window_size (viewer w)))
                     (snd (window_size (viewer w))) mode) w) "brightness" = Some b1 ∧
    is_num c0 0 ∧ is_num b0 1 ∧ is_num c1 1 ∧ is_num b1 0.
Proof.
  intros Hwd Hht.
  destruct (tweak_colormap_written w 0 0 mode) as [Hc0 Hb0].
  destruct (tweak_colormap_written w (fst (window_size (viewer w)))
              (snd (window_size (viewer w))) mode) as [Hc1 Hb1].
  eexists _, _, _, _.
  split; [exact Hc0 |]. split; [exact Hb0 |].
  split; [exact Hc1 |]. split; [exact Hb1 |].
  split; [by apply contrast_pct_low |]. split; [by apply brightness_pct_low |].
  split; [by apply contrast_pct_high | by apply brightness_pct_high].
Qed.

End Order.

Lemma tweak_colormap_monotone_witness :
  ∃ c1 b1 c2 b2 : npfloat,
    written (exec (_tweak_colormap (R := fixed_point 16) 2 3 "preview")
               (sample_world (10, 8) (2, 3) "move" true)) "contrast" = Some c1 ∧
    written (exec (_tweak_colormap (R := fixed_point 16) 2 3 "preview")
               (sample_world (10, 8) (2, 3) "move" true)) "brightness" = Some b1 ∧
    written (exec (_tweak_colormap (R := fixed_point 16) 7 5 "preview")
               (sample_world (10, 8) (2, 3) "move" true)) "contrast" = Some c2 ∧
    written (exec (_tweak_colormap (R := fixed_point 16) 7 5 "preview")
               (sample_world (10, 8) (2, 3) "move" true)) "brightness" = Some b2 ∧
    num_le c1 c2 ∧ num_le b2 b1.
Proof.
  apply (tweak_colormap_monotone (R := fixed_point 16)
           (sample_world (10, 8) (2, 3) "move" true) 2 3 7 5);
    simpl; lia.
Defined.

Lemma tweak_colormap_corners_witness :
  ∃ c0 b0 c1 b1 : npfloat,
    written (exec (_tweak_colormap (R := fixed_point 16) 0 0 "preview")
               (sample_world (10, 8) (0, 0) "move" true)) "contrast" = Some c0 ∧
    written (exec (_tweak_colormap (R := fixed_point 16) 0 0 "preview")
               (sample_world (10, 8) (0, 0) "move" true)) "brightness" = Some b0 ∧
    written (exec (_tweak_colormap (R := fixed_point 16) 10 8 "preview")
               (sample_world (10, 8) (0, 0) "move" true)) "contrast" = Some c1 ∧
    written (exec (_tweak_colormap (R := fixed_point 16) 10 8 "preview")
               (sample_world (10, 8) (0, 0) "move" true)) "brightness" = Some b1 ∧
    is_num c0 0 ∧ is_num b0 1 ∧ is_num c1 1 ∧ is_num b1 0.
Proof.
  apply (tweak_colormap_corners (R := fixed_point 16)
           (sample_world (10, 8) (0, 0) "move" true) "preview");
    simpl; lia.
Defined.

(** ** Successive writes *)

Section Composition.

Context {R : Rounding}.

Implicit Types (w : World) (x y : Z) (mode : string) (msg : pyval).

Lemma tweak_colormap_store w x y mode :
  store (exec (_tweak_colormap x y mode) w)
  = store_set (v_settings (viewer w)) (tweak_kwargs w x y) (store w).
Proof. by rewrite tweak_colormap_exec. Qed.

Lemma tweak_colormap_viewer w x y mode :
  viewer (exec (_tweak_colormap x y mode) w) = viewer w.
Proof. by rewrite tweak_colormap_exec. Qed.

Lemma restore_contrast_store w msg :
  store (exec (restore_contrast msg) w)
  = store_set (v_settings (viewer w)) restore_kwargs (store w).
Proof. unfold exec. rewrite restore_contrast_run. simpl. by destruct (truthy _). Qed.

Lemma restore_contrast_viewer w msg :
  viewer (exec (restore_contrast msg) w) = viewer w.
Proof. unfold exec. rewrite restore_contrast_run. simpl. by destruct (truthy _). Qed.

(** X3.  The last write wins.  After two calls of [_tweak_colormap], or a
    [restore_contrast] followed by a [_tweak_colormap], the settings store is
    the one that the last call alone produces: an earlier cursor position or
    restore leaves no trace in it. *)
Theorem tweak_colormap_overwrites w x1 y1 x2 y2 mode1 mode2 msg :
  store (exec (_tweak_colormap x2 y2 mode2) (exec (_tweak_colormap x1 y1 mode1) w))
  = store (exec (_tweak_colormap x2 y2 mode2) w) ∧
  store (exec (_tweak_colormap x2 y2 mode2) (exec (restore_contrast msg) w))
  = store (exec (_tweak_colormap x2 y2 mode2) w).
Proof.
  split.
  - rewrite !tweak_colormap_store. unfold tweak_kwargs.
    rewrite !tweak_colormap_viewer. apply store_set_two_absorb.
  - rewrite !tweak_colormap_store, restore_contrast_store. unfold tweak_kwargs.
    rewrite !restore_contrast_viewer. apply store_set_two_absorb.
Qed.

(** X4.  [restore_contrast] wipes out whatever [_tweak_colormap] stored and
    is idempotent on the settings store: restoring after a tweak, or after
    another restore, gives the store of a single restore. *)
Theorem restore_contrast_absorbs w x y mode msg1 msg2 :
  store (exec (restore_contrast msg2) (exec (_tweak_colormap x y mode) w))
  = store (exec (restore_contrast msg2) w) ∧
  store (exec (restore_contrast msg2) (exec (restore_contrast msg1) w))
  = store (exec (restore_contrast msg2) w).
Proof.
  split.
  - rewrite !restore_contrast_store, tweak_colormap_store.
    rewrite tweak_colormap_viewer. apply store_set_two_absorb.
  - rewrite !restore_contrast_store.
    rewrite restore_contrast_viewer. apply store_set_two_absorb.
Qed.

(** X5.  Both writers create the keys they need and remove none: after
    [_tweak_colormap] or [restore_contrast] the viewer's settings hold the
    keys they held before together with contrast and brightness. *)
Theorem writers_extend_keys w x y mode msg :
  dom (viewer_settings (exec (_tweak_colormap x y mode) w))
  = {["contrast"; "brightness"]} ∪ dom (viewer_settings w) ∧
  dom (viewer_settings (exec (restore_contrast msg) w))
  = {["contrast"; "brightness"]} ∪ dom (viewer_settings w).
Proof.
  unfold viewer_settings, group. split.
  - rewrite tweak_colormap_viewer, tweak_colormap_store.
    apply store_set_two_dom.
  - rewrite restore_contrast_viewer, restore_contrast_store.
    apply store_set_two_dom.
Qed.

End Composition.

(** ** The callbacks as a whole *)

Section CallbackLaws.

Context {R : Rounding}.

Implicit Types (w : World) (x y : Z) (mode : string) (msg : pyval).
Implicit Types (data_x data_y : Q) (key : string).

(** A restore does not touch the message flags, also when the mode reads
    them from the group the viewer writes to. *)
Lemma restored_flag w (r : ref) key :
  key ≠ "contrast" → key ≠ "brightness" →
  group (restored w) r !! key = group w r !! key.
Proof.
  intros Hc Hb. unfold group, restored, restore_kwargs. simpl.
  destruct (decide (r = v_settings (viewer w))) as [-> | Hr].
  - rewrite store_set_two. by rewrite !lookup_insert_ne.
  - by rewrite store_set_other.
Qed.

Lemma restore_contrast_flag_twice w msg :
  restore_contrast (msg_flag w "msg_cmap" msg) (accepted_world w)
  = restore_contrast msg (accepted_world w).
Proof.
  rewrite !restore_contrast_run. rewrite restored_flag by done.
  unfold msg_flag, accepted_world, exec, group. simpl.
  by destruct (default ∅ (store w !! settings (self w)) !! "msg_cmap").
Qed.

Lemma untouched_intro w w' :
  (store w' = store w ∨
   ∃ a b, store w' = store_set (v_settings (viewer w))
                       [("contrast", a); ("brightness", b)] (store w)) →
  viewer w' = viewer w →
  feature_allow w' = feature_allow w →
  state (event w') = state (event w) →
  settings (self w') = settings (self w) →
  actions (self w') = actions (self w) →
  untouched w w'.
Proof.
  intros Hst Hv Hf He Hs Ha. unfold untouched, viewer_settings, group.
  rewrite Hv. repeat apply conj; try assumption.
  - intros key Hc Hb. destruct Hst as [-> | (a & b & ->)]; [done |].
    rewrite store_set_two. by rewrite !lookup_insert_ne.
  - intros r Hr. destruct Hst as [-> | (a & b & ->)]; [done |].
    by rewrite store_set_other.
  - done.
Qed.

Lemma untouched_tweak w x y mode :
  untouched w (exec (_tweak_colormap x y mode) (accepted_world w)).
Proof.
  rewrite tweak_colormap_exec. apply untouched_intro; try done.
  right. unfold tweak_kwargs. simpl. eauto.
Qed.

Lemma untouched_restore w msg :
  untouched w (exec (restore_contrast msg) (accepted_world w)).
Proof.
  unfold exec. rewrite restore_contrast_run.
  destruct (truthy _); apply untouched_intro; try done;
    right; unfold restore_kwargs; simpl; eauto.
Qed.

(** X6.  With the cmap feature allowed, [kp_contrast_restore] does to the
    world exactly what [restore_contrast] does after the event is accepted:
    looking the msg_cmap flag up twice changes nothing.  So the key binding
    and a down event on [ms_contrast_restore] have the same effect. *)
Theorem kp_contrast_restore_is_restore w data_x data_y msg :
  feature_allow w "cmap" = true →
  exec (kp_contrast_restore data_x data_y msg) w
  = exec (restore_contrast msg) (accepted_world w) ∧
  (state (event w) = "down" →
   exec (kp_contrast_restore data_x data_y msg) w
   = exec (ms_contrast_restore data_x data_y msg) w).
Proof.
  intros Hcan.
  assert (Hkp : exec (kp_contrast_restore data_x data_y msg) w
                = exec (restore_contrast msg) (accepted_world w)).
  { unfold exec at 1. rewrite kp_contrast_restore_run by assumption. simpl.
    unfold exec. by rewrite restore_contrast_flag_twice. }
  split; [exact Hkp |].
  intros Hdown. rewrite Hkp. unfold exec at 2.
  rewrite ms_contrast_restore_run by assumption. simpl. by rewrite Hdown.
Qed.

(** X7.  [restore_contrast] shows its message exactly when the msg_cmap
    flag of the mode's settings, or the [msg] argument when the flag is not
    set, is true; the flag is the one in force before the call, also when
    the mode and the viewer share a settings group. *)
Theorem restore_contrast_message w msg :
  log (exec (restore_contrast msg) w)
  = if truthy (msg_flag w "msg_cmap" msg)
    then OnscreenMessage (Some "Restored contrast") (Some (1 # 2)%Q) :: log w
    else log w.
Proof.
  unfold exec. rewrite restore_contrast_run. rewrite restored_flag by done.
  unfold msg_flag. by destruct (truthy _).
Qed.

(** X8.  Whatever the event state and whether or not the cmap feature is
    allowed, none of the three callbacks changes anything but the contrast
    and brightness of the viewer's settings, the accepted flag of the event,
    the start position kept by the mode and the display log. *)
Theorem callbacks_frame w data_x data_y msg :
  untouched w (exec (kp_contrast_restore data_x data_y msg) w) ∧
  untouched w (exec (ms_contrast data_x data_y msg) w) ∧
  untouched w (exec (ms_contrast_restore data_x data_y msg) w).
Proof.
  destruct (feature_allow w "cmap") eqn:Hcan.
  - unfold exec at 1 2 3.
    rewrite kp_contrast_restore_run, ms_contrast_run, ms_contrast_restore_run
      by assumption.
    cbn [snd]. split; [| split].
    + exact (untouched_restore w _).
    + destruct (String.eqb (state (event w)) "move"); [exact (untouched_tweak w _ _ _) |].
      destruct (String.eqb (state (event w)) "down");
        [destruct (truthy _) |]; apply untouched_intro; try done; by left.
    + destruct (String.eqb (state (event w)) "down");
        [exact (untouched_restore w _) |].
      apply untouched_intro; try done; by left.
  - unfold exec.
    rewrite kp_contrast_restore_refused, ms_contrast_refused,
      ms_contrast_restore_refused by assumption.
    simpl. split; [| split]; apply untouched_intro; try done; by left.
Qed.

(** X9.  Each callback accepts the event exactly when the cmap feature is
    allowed, never takes an acceptance back, and returns [None] when allowed
    and [False] when not. *)
Theorem callbacks_accept w data_x data_y msg :
  (accepted (event (exec (kp_contrast_restore data_x data_y msg) w))
   = accepted (event w) || feature_allow w "cmap" ∧
   result (kp_contrast_restore data_x data_y msg) w
   = if feature_allow w "cmap" then PyNone else PyBool false) ∧
  (accepted (event (exec (ms_contrast data_x data_y msg) w))
   = accepted (event w) || feature_allow w "cmap" ∧
   result (ms_contrast data_x data_y msg) w
   = if feature_allow w "cmap" then PyNone else PyBool false) ∧
  (accepted (event (exec (ms_contrast_restore data_x data_y msg) w))
   = accepted (event w) || feature_allow w "cmap" ∧
   result (ms_contrast_restore data_x data_y msg) w
   = if feature_allow w "cmap" then PyNone else PyBool false).
Proof.
  destruct (feature_allow w "cmap") eqn:Hcan.
  - unfold exec, result.
    rewrite kp_contrast_restore_run, ms_contrast_run, ms_contrast_restore_run
      by assumption.
    simpl. rewrite orb_true_r. repeat apply conj; try reflexivity.
    + unfold exec. rewrite restore_contrast_run. simpl. by destruct (truthy _).
    + destruct (String.eqb (state (event w)) "move");
        [by rewrite tweak_colormap_exec |].
      destruct (String.eqb (state (event w)) "down"); [| done].
      by destruct (truthy _).
    + destruct (String.eqb (state (event w)) "down"); [| done].
      unfold exec. rewrite restore_contrast_run. simpl. by destruct (truthy _).
  - unfold exec, result.
    rewrite kp_contrast_restore_refused, ms_contrast_refused,
      ms_contrast_restore_refused by assumption.
    simpl. by rewrite orb_false_r.
Qed.

(** X10.  What [ms_contrast] shows when the cmap feature is allowed.  A
    move event shows no message: the log gains the entry and exit of the
    redraw suppression only.  A down event shows the drag hint exactly when
    the msg_contrast flag of the mode's settings, or the [msg] argument when
    the flag is not set, is true.  Any other event clears the message. *)
Theorem ms_contrast_display w data_x data_y msg :
  feature_allow w "cmap" = true →
  (state (event w) = "move" →
   log (exec (ms_contrast data_x data_y msg) w)
   = SuppressRedrawExit :: SuppressRedrawEnter :: log w) ∧
  (state (event w) = "down" →
   log (exec (ms_contrast data_x data_y msg) w)
   = if truthy (msg_flag w "msg_contrast" msg)
     then OnscreenMessage (Some "Shift and stretch colormap (drag mouse)")
            (Some 1%Q) :: log w
     else log w) ∧
  (state (event w) ≠ "move" → state (event w) ≠ "down" →
   log (exec (ms_contrast data_x data_y msg) w)
   = OnscreenMessage None None :: log w).
Proof.
  intros Hcan. unfold exec at 1 2 3.
  rewrite ms_contrast_run by assumption. simpl.
  repeat apply conj.
  - intros ->. simpl. by rewrite tweak_colormap_exec.
  - intros ->. simpl. by destruct (truthy _).
  - intros Hmove Hdown.
    apply String.eqb_neq in Hmove, Hdown. by rewrite Hmove, Hdown.
Qed.

(** X11.  The mode object changes on one occasion only, an allowed down
    event of [ms_contrast]: the two restore callbacks never change it, and
    [ms_contrast] leaves it alone when refused or when the event state is
    not down. *)
Theorem mode_changes_on_down_only w data_x data_y msg :
  self (exec (kp_contrast_restore data_x data_y msg) w) = self w ∧
  self (exec (ms_contrast_restore data_x data_y msg) w) = self w ∧
  (feature_allow w "cmap" = false ∨ state (event w) ≠ "down" →
   self (exec (ms_contrast data_x data_y msg) w) = self w).
Proof.
  destruct (feature_allow w "cmap") eqn:Hcan.
  - unfold exec at 1 2 3.
    rewrite kp_contrast_restore_run, ms_contrast_run, ms_contrast_restore_run
      by assumption.
    simpl. repeat apply conj.
    + unfold exec. rewrite restore_contrast_run. simpl. by destruct (truthy _).
    + destruct (String.eqb (state (event w)) "down"); [| done].
      unfold exec. rewrite restore_contrast_run. simpl. by destruct (truthy _).
    + intros [Hf | Hdown]; [discriminate |].
      apply String.eqb_neq in Hdown. rewrite Hdown.
      destruct (String.eqb (state (event w)) "move"); [| done].
      by rewrite tweak_colormap_exec.
  - unfold exec.
    by rewrite kp_contrast_restore_refused, ms_contrast_refused,
      ms_contrast_restore_refused by assumption.
Qed.

(** X12.  Entering and leaving the mode do not touch the contrast: [start]
    changes nothing at all, and [stop] after a [_tweak_colormap] keeps the
    whole settings store, its only effect being one more display call, the
    clearing of the on-screen message. *)
Theorem start_stop_keep_contrast w x y mode :
  exec start w = w ∧
  store (exec stop (exec (_tweak_colormap x y mode) w))
  = store (exec (_tweak_colormap x y mode) w) ∧
  written (exec stop (exec (_tweak_colormap x y mode) w)) "contrast"
  = Some (contrast_pct y (snd (window_size (viewer w)))) ∧
  written (exec stop (exec (_tweak_colormap x y mode) w)) "brightness"
  = Some (brightness_pct x (fst (window_size (viewer w)))) ∧
  log (exec stop (exec (_tweak_colormap x y mode) w))
  = OnscreenMessage None None :: log (exec (_tweak_colormap x y mode) w).
Proof.
  destruct (tweak_colormap_written w x y mode) as [Hc Hb].
  repeat apply conj; try reflexivity; [exact Hc | exact Hb].
Qed.

End CallbackLaws.

Lemma kp_contrast_restore_is_restore_witness :
  exec (kp_contrast_restore 0%Q 0%Q (PyBool true))
    (shared_world (10, 8) (4, 6) "down" true)
  = exec (restore_contrast (PyBool true))
      (accepted_world (shared_world (10, 8) (4, 6) "down" true)) ∧
  exec (kp_contrast_restore 0%Q 0%Q (PyBool true))
    (shared_world (10, 8) (4, 6) "down" true)
  = exec (ms_contrast_restore 0%Q 0%Q (PyBool true))
      (shared_world (10, 8) (4, 6) "down" true).
Proof.
  destruct (kp_contrast_restore_is_restore
              (shared_world (10, 8) (4, 6) "down" true) 0%Q 0%Q (PyBool true) eq_refl)
    as [Hrestore Hsame].
  split; [exact Hrestore | exact (Hsame eq_refl)].
Defined.

Lemma ms_contrast_display_witness :
  log (exec (ms_contrast (R := exact_arith) 0%Q 0%Q (PyBool true))
         (sample_world (10, 8) (4, 6) "move" true))
  = [SuppressRedrawExit; SuppressRedrawEnter] ∧
  log (exec (ms_contrast (R := exact_arith) 0%Q 0%Q (PyBool false))
         (sample_world (10, 8) (4, 6) "down" true))
  = [] ∧
  log (exec (ms_contrast (R := exact_arith) 0%Q 0%Q (PyBool true))
         (sample_world (10, 8) (4, 6) "up" true))
  = [OnscreenMessage None None].
Proof.
  split; [| split].
  - apply (ms_contrast_display (R := exact_arith)
             (sample_world (10, 8) (4, 6) "move" true) 0%Q 0%Q (PyBool true));
      reflexivity.
  - apply (ms_contrast_display (R := exact_arith)
             (sample_world (10, 8) (4, 6) "down" true) 0%Q 0%Q (PyBool false));
      reflexivity.
  - apply (ms_contrast_display (R := exact_arith)
             (sample_world (10, 8) (4, 6) "up" true) 0%Q 0%Q (PyBool true));
      [reflexivity | discriminate | discriminate].
Defined.

Lemma mode_changes_on_down_only_witness :
  self (exec (ms_contrast (R := exact_arith) 0%Q 0%Q (PyBool true))
          (shared_world (10, 8) (4, 6) "move" true))
  = self (shared_world (10, 8) (4, 6) "move" true) ∧
  self (exec (ms_contrast (R := exact_arith) 0%Q 0%Q (PyBool true))
          (shared_world (10, 8) (4, 6) "down" false))
  = self (shared_world (10, 8) (4, 6) "down" false).
Proof.
  split.
  - apply (mode_changes_on_down_only (R := exact_arith)
             (shared_world (10, 8) (4, 6) "move" true) 0%Q 0%Q (PyBool true)).
    right. discriminate.
  - apply (mode_changes_on_down_only (R := exact_arith)
             (shared_world (10, 8) (4, 6) "down" false) 0%Q 0%Q (PyBool true)).
    left. reflexivity.
Defined.
